(** * Gemini NeuroSort API: a shallow embedding of [app.py]

    The service is a Flask application with two routes: a status check at
    [/] and a prediction endpoint that relays an uploaded image and a text
    prompt to the Gemini model and labels the returned text by keyword.

    A Python [str] is modelled as the [string] of the bytes of its UTF-8
    encoding, so that a character outside ASCII takes several bytes of the
    [string]; the two dictionaries of a
    request ([request.files], [request.form]) as [gmap string _], holding
    for each field name the first value sent under it (the one that
    [request.files['image']] and [request.form.get('prompt')] return).
    Code that logs, reads the environment, calls the model or raises runs
    in the monad [M]: a trace of events together with an exception or a
    value. *)

From Stdlib Require Import String Ascii List ZArith Lia.
From stdpp Require Import gmap strings.
Import ListNotations.
Open Scope string_scope.

(** ** Python strings *)

Module Py.

(** [s.startswith(p)] *)
Fixpoint startswith (p s : string) : bool :=
  match p, s with
  | EmptyString, _ => true
  | String _ _, EmptyString => false
  | String a p', String b s' => Ascii.eqb a b && startswith p' s'
  end.

(** [needle in hay] on two [str]: [needle] occurs in [hay] as a
    contiguous run of characters, compared character by character. *)
Fixpoint str_in (needle hay : string) : bool :=
  startswith needle hay ||
  match hay with
  | EmptyString => false
  | String _ hay' => str_in needle hay'
  end.

(** A byte of the form 10xxxxxx: in UTF-8 it continues the character that
    the bytes before it began. *)
Definition is_continuation (a : ascii) : bool :=
  match a with
  | Ascii _ _ _ _ _ _ b6 b7 => b7 && negb b6
  end.

(** [len(s)]: the number of characters, one for each byte that begins
    one. *)
Fixpoint code_points (s : string) : nat :=
  match s with
  | EmptyString => O
  | String a s' =>
      if is_continuation a then code_points s' else S (code_points s')
  end.

(** [s[:n]]: the first [n] characters of [s], each with all its bytes. *)
Fixpoint slice_to (n : nat) (s : string) : string :=
  match s with
  | EmptyString => EmptyString
  | String a s' =>
      if is_continuation a then String a (slice_to n s')
      else match n with
           | O => EmptyString
           | S n' => String a (slice_to n' s')
           end
  end.

(** The exceptions that can reach the handler or the module body. Every
    constructor is a subclass of [Exception]; [APIError] stands for
    [google.genai.errors.APIError] and its subclasses, with the
    attribute [message] and the text [str(e)]. The other constructors
    carry [str(e)] only. *)
Inductive Exn : Type :=
| APIError (message : string) (str : string)
| RuntimeError (str : string)
| TypeError (str : string)
| PILError (str : string)
| OtherException (str : string).

(** [str(e)] *)
Definition str (e : Exn) : string :=
  match e with
  | APIError _ s | RuntimeError s | TypeError s | PILError s
  | OtherException s => s
  end.

(** [isinstance(e, APIError)] *)
Definition is_APIError (e : Exn) : bool :=
  match e with
  | APIError _ _ => true
  | _ => false
  end.

End Py.

Export Py.

(** ** Events and the monad of the program *)

Inductive Level : Type := INFO | ERROR.

(** What [generate_content] receives in [contents]. *)
Inductive Image : Type := PILImage (fp : list Byte.byte).

Inductive Content : Type :=
| Text (s : string)
| Picture (im : Image).

Inductive Event : Type :=
| EvGetenv (key : string)
| EvLog (lvl : Level) (msg : string)
| EvGenerateContent (model : string) (contents : list Content)
| EvServe (host : string) (port : Z).

Definition M (A : Type) : Type := (list Event * (Exn + A))%type.

Definition ret {A} (a : A) : M A := ([], inr a).

Definition raise {A} (e : Exn) : M A := ([], inl e).

Definition bind {A B} (m : M A) (k : A -> M B) : M B :=
  match m with
  | (t, inl e) => (t, inl e)
  | (t, inr a) => let '(t', r) := k a in ((t ++ t')%list, r)
  end.

Definition emit (ev : Event) : M unit := ([ev], inr tt).

Definition lift {A} (r : Exn + A) : M A := ([], r).

(** [try: m except Exception as e: h e] *)
Definition try_except {A} (m : M A) (h : Exn -> M A) : M A :=
  match m with
  | (t, inl e) => let '(t', r) := h e in ((t ++ t')%list, r)
  | (t, inr a) => (t, inr a)
  end.

Notation "x <- m ;; k" := (bind m (fun x => k))
  (at level 100, m at next level, right associativity).
Notation "m ;;; k" := (bind m (fun _ => k))
  (at level 100, right associativity).

Definition trace {A} (m : M A) : list Event := fst m.
Definition outcome {A} (m : M A) : Exn + A := snd m.

(** [logger.info(msg)] and [logger.error(msg)]; the logger is configured at
    level INFO, so both are emitted. *)
Definition logger_info (msg : string) : M unit := emit (EvLog INFO msg).
Definition logger_error (msg : string) : M unit := emit (EvLog ERROR msg).

(** ** JSON values and HTTP responses *)

Unset Elimination Schemes.
Inductive Json : Type :=
| JString (s : string)
| JBool (b : bool)
| JObject (members : list (string * Json)).
Set Elimination Schemes.

Inductive Body : Type :=
| JsonBody (j : Json)
| TextBody (s : string).

Record Response : Type := mkResponse { status : Z; body : Body }.

(** [jsonify(d)]: a response with status 200 whose body is the JSON
    document [d]. *)
Definition jsonify (d : Json) : Response :=
  {| status := 200; body := JsonBody d |}.

(** A view returning the pair [(rv, code)]. *)
Definition with_status (rv : Response) (code : Z) : Response :=
  {| status := code; body := body rv |}.

Definition is_json (b : Body) : bool :=
  match b with
  | JsonBody _ => true
  | TextBody _ => false
  end.

(** ** Requests *)

Inductive Method : Type := GET | HEAD | POST | PUT | DELETE | PATCH | OPTIONS.

Definition Method_eqb (a b : Method) : bool :=
  match a, b with
  | GET, GET | HEAD, HEAD | POST, POST | PUT, PUT | DELETE, DELETE
  | PATCH, PATCH | OPTIONS, OPTIONS => true
  | _, _ => false
  end.

Record Request : Type := mkRequest {
  method : Method;
  path : string;
  files : gmap string (list Byte.byte);
  form : gmap string string
}.

(** ** The collaborators: Pillow and the GenAI SDK *)

Record GenerateContentResponse : Type := { text : option string }.

Record Client : Type := {
  generate_content : string -> list Content -> Exn + GenerateContentResponse
}.

(** [Image_open] answers with the text of Pillow's exception when the bytes
    are not an image it can identify. [genai_Client] is the SDK's
    constructor, which looks at the environment. *)
Record World : Type := {
  Image_open : list Byte.byte -> string + Image;
  genai_Client : gmap string string -> Exn + Client
}.

(** [Image.open(BytesIO(image_data))] *)
Definition open_image (w : World) (image_data : list Byte.byte) : M Image :=
  match Image_open w image_data with
  | inl s => raise (PILError s)
  | inr im => ret im
  end.

(** [client.models.generate_content(model=..., contents=...)]: one outbound
    call, which returns the model's response or raises. *)
Definition models_generate_content (client : Client) (model : string)
    (contents : list Content) : M GenerateContentResponse :=
  emit (EvGenerateContent model contents) ;;;
  lift (generate_content client model contents).

(** ** The views *)

Definition home : M Response :=
  ret (jsonify (JObject [("status", JString "ok");
                         ("service", JString "Gemini NeuroSort API")])).

(** The [if]/[elif]/[else] chain over [response_text]. *)
Definition category_of (response_text : string) : string :=
  if str_in "Recyclable" response_text then "Recyclable"
  else if str_in "Compost" response_text then "Compost"
  else "Non-Recyclable".

(** [model_response.text] is [None] when the response carries no text part;
    the first membership test, ["Recyclable" in response_text], then raises
    [TypeError]. *)
Definition text_of (model_response : GenerateContentResponse) : M string :=
  match text model_response with
  | Some s => ret s
  | None => raise (TypeError "argument of type 'NoneType' is not iterable")
  end.

(** The body of the [try] statement. *)
Definition predict_body (w : World) (client : Client)
    (file : list Byte.byte) (prompt : string) : M Response :=
  let image_data := file in
  image <- open_image w image_data ;;
  logger_info ("Received image and prompt: " ++ prompt
               ++ ". Sending request to Gemini...") ;;;
  model_response <- models_generate_content client "gemini-2.5-flash"
                      [Text prompt; Picture image] ;;
  response_text <- text_of model_response ;;
  let category := category_of response_text in
  logger_info ("Prediction complete. Category: " ++ category
               ++ ". Response snippet: " ++ slice_to 50 response_text
               ++ "...") ;;;
  ret (jsonify (JObject [("success", JBool true);
                         ("prediction", JString response_text);
                         ("category", JString category)])).

(** The two [except] clauses, tried in order. *)
Definition predict_except (e : Exn) : M Response :=
  match e with
  | APIError message _ =>
      logger_error ("Gemini API Error: " ++ str e) ;;;
      ret (with_status
             (jsonify (JObject [("error",
                JString ("Gemini API service failed: " ++ message))])) 500)
  | _ =>
      logger_error ("Internal Server Error: " ++ str e) ;;;
      ret (with_status
             (jsonify (JObject [("error",
                JString "Internal AI prediction service failed.")])) 500)
  end.

Definition gemini_predict (w : World) (client : Client) (request : Request)
    : M Response :=
  if Method_eqb (method request) OPTIONS then
    ret {| status := 204; body := TextBody "" |}
  else
    match files request !! "image" with
    | None =>
        ret (with_status
               (jsonify (JObject [("error", JString "No image file provided")]))
               400)
    | Some file =>
        match form request !! "prompt" with
        | None | Some EmptyString =>
            ret (with_status
                   (jsonify (JObject [("error",
                      JString "No text prompt provided")])) 400)
        | Some prompt =>
            try_except (predict_body w client file prompt) predict_except
        end
    end.

(** ** Routing

    The two [@app.route] decorators. A rule without [methods] answers GET;
    Flask adds HEAD to every rule that answers GET, and answers OPTIONS by
    itself on a rule that does not list it. The rule that [Flask(__name__)]
    adds for files under [/static/] is not in this table. *)

Inductive View : Type := view_home | view_gemini_predict.

Record Rule : Type := {
  rule : string;
  methods : list Method;
  endpoint : View
}.

Definition url_map : list Rule :=
  [ {| rule := "/"; methods := [GET]; endpoint := view_home |};
    {| rule := "/api/gemini-predict"; methods := [POST; OPTIONS];
       endpoint := view_gemini_predict |} ].

Definition allows (r : Rule) (m : Method) : bool :=
  existsb (Method_eqb m) (methods r) ||
  (Method_eqb m HEAD && existsb (Method_eqb GET) (methods r)).

Definition automatic_options (r : Rule) : bool :=
  negb (existsb (Method_eqb OPTIONS) (methods r)).

Definition match_rule (p : string) : option Rule :=
  find (fun r => String.eqb (rule r) p) url_map.

Definition not_found : Response :=
  {| status := 404; body := TextBody "Not Found" |}.

Definition method_not_allowed : Response :=
  {| status := 405; body := TextBody "Method Not Allowed" |}.

Definition call_view (w : World) (client : Client) (v : View)
    (request : Request) : M Response :=
  match v with
  | view_home => home
  | view_gemini_predict => gemini_predict w client request
  end.

Definition dispatch_request (w : World) (client : Client) (request : Request)
    : M Response :=
  match match_rule (path request) with
  | None => ret not_found
  | Some r =>
      if allows r (method request) then
        call_view w client (endpoint r) request
      else if Method_eqb (method request) OPTIONS && automatic_options r then
        ret {| status := 200; body := TextBody "" |}
      else ret method_not_allowed
  end.

(** ** Start of the process *)

Record App : Type := { API_KEY : string; client : Client }.

(** [load_dotenv()]: the variables of the [.env] file are added to the
    environment; a variable that is already set keeps its value. *)
Definition load_dotenv (dotenv environ : gmap string string)
    : gmap string string :=
  environ ∪ dotenv.

(** [os.getenv(key)] *)
Definition os_getenv (environ : gmap string string) (key : string)
    : M (option string) :=
  emit (EvGetenv key) ;;; ret (environ !! key).

(** The module body, lines 20 to 45. [not API_KEY] holds for [None] and for
    the empty string. *)
Definition module_body (w : World) (dotenv environ0 : gmap string string)
    : M App :=
  let environ := load_dotenv dotenv environ0 in
  key <- os_getenv environ "GEMINI_API_KEY" ;;
  match key with
  | None | Some EmptyString =>
      logger_error
        "GEMINI_API_KEY is not set. Please set the environment variable." ;;;
      raise (RuntimeError "GEMINI_API_KEY is not set")
  | Some k =>
      c <- lift (genai_Client w environ) ;;
      ret {| API_KEY := k; client := c |}
  end.

(** Running the file as a script: the module body, then the [__main__]
    block. *)
Definition main (w : World) (dotenv environ0 : gmap string string) : M App :=
  app <- module_body w dotenv environ0 ;;
  logger_info "Starting Waitress server on http://0.0.0.0:5000..." ;;;
  emit (EvServe "0.0.0.0" 5000) ;;;
  ret app.

(** ** Observations on traces *)

Definition is_outbound (ev : Event) : bool :=
  match ev with
  | EvGenerateContent _ _ => true
  | _ => false
  end.

Definition is_log (ev : Event) : bool :=
  match ev with
  | EvLog _ _ => true
  | _ => false
  end.

Definition is_error_log (ev : Event) : bool :=
  match ev with
  | EvLog ERROR _ => true
  | _ => false
  end.

Definition reads_env (key : string) (ev : Event) : bool :=
  match ev with
  | EvGetenv k => String.eqb k key
  | _ => false
  end.

Definition count (p : Event -> bool) (t : list Event) : nat :=
  length (List.filter p t).

Definition outbound_calls (t : list Event) : nat := count is_outbound t.

(** [kw] occurs in [s]. *)
Definition occurs (kw s : string) : Prop :=
  exists pre post, s = pre ++ kw ++ post.

(** The request gets as far as the call of the model: it is not a
    preflight, it has an image and a prompt, and Pillow opens the image. *)
Definition reaches_model (w : World) (request : Request) : bool :=
  negb (Method_eqb (method request) OPTIONS) &&
  match files request !! "image", form request !! "prompt" with
  | Some file, Some (String _ _) =>
      match Image_open w file with
      | inr _ => true
      | inl _ => false
      end
  | _, _ => false
  end.

Definition is_serve (ev : Event) : bool :=
  match ev with
  | EvServe _ _ => true
  | _ => false
  end.

(** The three values that [category] is assigned in [gemini_predict]. *)
Definition labels : list string := ["Recyclable"; "Compost"; "Non-Recyclable"].

(** ** A concrete world, for examples *)

Module Demo.

Definition jpeg : list Byte.byte := [Byte.xff; Byte.xd8; Byte.xff; Byte.xe0].
Definition garbage : list Byte.byte := [Byte.x00; Byte.x01].

Definition answer (contents : list Content) : Exn + GenerateContentResponse :=
  match contents with
  | [Text "fail"; _] =>
      inl (APIError "quota exceeded" "429 RESOURCE_EXHAUSTED. quota exceeded")
  | [Text "crash"; _] => inl (OtherException "connection reset")
  | [Text "empty"; _] => inr {| text := None |}
  | [Text "food?"; _] => inr {| text := Some "Compost: a banana peel" |}
  | _ => inr {| text := Some "Non-Recyclable and not Compost" |}
  end.

Definition gemini : Client :=
  {| generate_content := fun _ contents => answer contents |}.

Definition world : World :=
  {| Image_open := fun data =>
       match data with
       | Byte.xff :: Byte.xd8 :: _ => inr (PILImage data)
       | _ => inl "cannot identify image file"
       end;
     genai_Client := fun _ => inr gemini |}.

Definition upload (m : Method) (p : string) (image : option (list Byte.byte))
    (prompt : option string) : Request :=
  {| method := m; path := p;
     files := match image with
              | Some data => {[ "image" := data ]}
              | None => ∅
              end;
     form := match prompt with
             | Some s => {[ "prompt" := s ]}
             | None => ∅
             end |}.

End Demo.

(** A world in which the SDK refuses to build a client. *)
Module Offline.

Definition world : World :=
  {| Image_open := Image_open Demo.world;
     genai_Client := fun _ => inl (OtherException "no API key was provided") |}.

End Offline.

(** * Properties *)

(** ** Substring search *)

Section Substring.

Lemma startswith_spec (p s : string) :
  startswith p s = true <-> exists post, s = p ++ post.
Proof.
  revert s. induction p as [|a p IH]; intros s; simpl.
  - split; [intros _; now exists s | reflexivity].
  - destruct s as [|b s].
    + split; [discriminate | intros [post H]; discriminate].
    + rewrite andb_true_iff, Ascii.eqb_eq, IH. split.
      * intros [-> [post ->]]. now exists post.
      * intros [post H]. injection H as -> ->. split; [reflexivity | now exists post].
Qed.

Lemma str_in_spec (kw s : string) : str_in kw s = true <-> occurs kw s.
Proof.
  unfold occurs. induction s as [|b s IH]; simpl.
  - rewrite orb_false_r, startswith_spec. split.
    + intros [post H]. now exists "", post.
    + intros [pre [post H]]. destruct pre; [now exists post | discriminate].
  - rewrite orb_true_iff, startswith_spec, IH. split.
    + intros [[post H] | [pre [post H]]].
      * now exists "", post.
      * exists (String b pre), post. simpl. now rewrite H.
    + intros [pre [post H]]. destruct pre as [|c pre]; simpl in H.
      * left. now exists post.
      * right. injection H as _ ->. now exists pre, post.
Qed.

Lemma str_in_false (kw s : string) : str_in kw s = false <-> ~ occurs kw s.
Proof.
  rewrite <- str_in_spec. destruct (str_in kw s); split; auto; try discriminate.
  intros H. now destruct H.
Qed.

End Substring.

(** ** The category of a text *)

Lemma category_of_Recyclable (s : string) :
  occurs "Recyclable" s -> category_of s = "Recyclable".
Proof.
  intros H. apply str_in_spec in H. unfold category_of. now rewrite H.
Qed.

Lemma category_of_Compost (s : string) :
  ~ occurs "Recyclable" s -> occurs "Compost" s -> category_of s = "Compost".
Proof.
  intros HR HC. apply str_in_false in HR. apply str_in_spec in HC.
  unfold category_of. now rewrite HR, HC.
Qed.

Lemma category_of_other (s : string) :
  ~ occurs "Recyclable" s -> ~ occurs "Compost" s ->
  category_of s = "Non-Recyclable".
Proof.
  intros HR HC. apply str_in_false in HR. apply str_in_false in HC.
  unfold category_of. now rewrite HR, HC.
Qed.

Example category_both : category_of "Compost or Recyclable" = "Recyclable".
Proof. reflexivity. Qed.

Example category_label_itself : category_of "Non-Recyclable" = "Recyclable".
Proof. reflexivity. Qed.

Example category_lower_case : category_of "recyclable, compost" = "Non-Recyclable".
Proof. reflexivity. Qed.

(** ** Running the handler *)

Lemma Method_eqb_eq (a b : Method) : Method_eqb a b = true <-> a = b.
Proof. destruct a, b; simpl; split; congruence. Qed.

(** A request that passes both checks runs the [try] statement. *)
Lemma gemini_predict_checked (w : World) (c : Client) (request : Request)
    (file : list Byte.byte) (prompt : string) :
  method request <> OPTIONS ->
  files request !! "image" = Some file ->
  form request !! "prompt" = Some prompt ->
  prompt <> "" ->
  gemini_predict w c request =
  try_except (predict_body w c file prompt) predict_except.
Proof.
  intros Hm Hf Hp Hne. unfold gemini_predict.
  destruct (Method_eqb (method request) OPTIONS) eqn:E.
  - apply Method_eqb_eq in E. contradiction.
  - rewrite Hf, Hp. destruct prompt; [contradiction | reflexivity].
Qed.

(** The [try] statement when the model answers with a text. *)
Lemma predict_body_answer (w : World) (c : Client) (file : list Byte.byte)
    (prompt : string) (image : Image) (s : string) :
  Image_open w file = inr image ->
  generate_content c "gemini-2.5-flash" [Text prompt; Picture image]
    = inr {| text := Some s |} ->
  predict_body w c file prompt =
  ([EvLog INFO ("Received image and prompt: " ++ prompt
                ++ ". Sending request to Gemini...");
    EvGenerateContent "gemini-2.5-flash" [Text prompt; Picture image];
    EvLog INFO ("Prediction complete. Category: " ++ category_of s
                ++ ". Response snippet: " ++ slice_to 50 s ++ "...")],
   inr (jsonify (JObject [("success", JBool true);
                          ("prediction", JString s);
                          ("category", JString (category_of s))]))).
Proof.
  intros Hi Hg. unfold predict_body, open_image, models_generate_content.
  rewrite Hi. cbn [bind ret raise emit lift logger_info app].
  rewrite Hg. reflexivity.
Qed.

(** The [try] statement when the call of the model raises. *)
Lemma predict_body_raises (w : World) (c : Client) (file : list Byte.byte)
    (prompt : string) (image : Image) (e : Exn) :
  Image_open w file = inr image ->
  generate_content c "gemini-2.5-flash" [Text prompt; Picture image] = inl e ->
  predict_body w c file prompt =
  ([EvLog INFO ("Received image and prompt: " ++ prompt
                ++ ". Sending request to Gemini...");
    EvGenerateContent "gemini-2.5-flash" [Text prompt; Picture image]],
   inl e).
Proof.
  intros Hi Hg. unfold predict_body, open_image, models_generate_content.
  rewrite Hi. cbn [bind ret raise emit lift logger_info app].
  rewrite Hg. reflexivity.
Qed.

(** The [try] statement when Pillow cannot open the upload. *)
Lemma predict_body_undecodable (w : World) (c : Client)
    (file : list Byte.byte) (prompt : string) (msg : string) :
  Image_open w file = inl msg ->
  predict_body w c file prompt = ([], inl (PILError msg)).
Proof.
  intros Hi. unfold predict_body, open_image. now rewrite Hi.
Qed.

Lemma try_except_raised {A} (m : M A) (h : Exn -> M A) (e : Exn) :
  outcome m = inl e ->
  try_except m h = ((trace m ++ trace (h e))%list, outcome (h e)).
Proof.
  destruct m as [t [e'|a]]; simpl; intros H; [|discriminate].
  injection H as ->. now destruct (h e).
Qed.

Lemma POST_not_OPTIONS (request : Request) :
  method request = POST -> method request <> OPTIONS.
Proof. intros ->. discriminate. Qed.

(** ** Category derivation *)

(** C1: when the model returns a text, the handler answers 200 with that
    text and a category found by scanning it for the literal keywords,
    first match first: "Recyclable" if it occurs anywhere in the text,
    otherwise "Compost" if that occurs, otherwise "Non-Recyclable". The
    comparison is character by character, so case matters. *)
Theorem category_first_match_wins (w : World) (c : Client) (request : Request)
    (file : list Byte.byte) (prompt : string) (image : Image) (s : string) :
  method request = POST ->
  files request !! "image" = Some file ->
  form request !! "prompt" = Some prompt ->
  prompt <> "" ->
  Image_open w file = inr image ->
  generate_content c "gemini-2.5-flash" [Text prompt; Picture image]
    = inr {| text := Some s |} ->
  exists category,
    outcome (gemini_predict w c request)
      = inr {| status := 200;
               body := JsonBody (JObject [("success", JBool true);
                                          ("prediction", JString s);
                                          ("category", JString category)]) |}
    /\ (occurs "Recyclable" s -> category = "Recyclable")
    /\ (~ occurs "Recyclable" s -> occurs "Compost" s -> category = "Compost")
    /\ (~ occurs "Recyclable" s -> ~ occurs "Compost" s ->
        category = "Non-Recyclable").
Proof.
  intros Hm Hf Hp Hne Hi Hg. exists (category_of s).
  rewrite (gemini_predict_checked w c request file prompt)
    by auto using POST_not_OPTIONS.
  rewrite (predict_body_answer w c file prompt image s Hi Hg).
  split; [reflexivity|].
  auto using category_of_Recyclable, category_of_Compost, category_of_other.
Qed.

Lemma category_first_match_wins_witness :
  exists category,
    outcome (gemini_predict Demo.world Demo.gemini
               (Demo.upload POST "/api/gemini-predict" (Some Demo.jpeg)
                  (Some "food?")))
      = inr {| status := 200;
               body := JsonBody
                 (JObject [("success", JBool true);
                           ("prediction", JString "Compost: a banana peel");
                           ("category", JString category)]) |}
    /\ (occurs "Recyclable" "Compost: a banana peel" ->
        category = "Recyclable")
    /\ (~ occurs "Recyclable" "Compost: a banana peel" ->
        occurs "Compost" "Compost: a banana peel" -> category = "Compost")
    /\ (~ occurs "Recyclable" "Compost: a banana peel" ->
        ~ occurs "Compost" "Compost: a banana peel" ->
        category = "Non-Recyclable").
Proof.
  apply (category_first_match_wins Demo.world Demo.gemini _ Demo.jpeg "food?"
           (PILImage Demo.jpeg)).
  - reflexivity.
  - reflexivity.
  - reflexivity.
  - discriminate.
  - reflexivity.
  - reflexivity.
Defined.

(** ** Input validation *)

(** C2: a POST request without an [image] file is answered 400 with the
    body [{"error": "No image file provided"}], and nothing else happens. *)
Theorem missing_image_400 (w : World) (c : Client) (request : Request) :
  method request = POST ->
  files request !! "image" = None ->
  gemini_predict w c request
  = ([], inr {| status := 400;
                body := JsonBody
                  (JObject [("error", JString "No image file provided")]) |}).
Proof.
  intros Hm Hf. unfold gemini_predict. now rewrite Hm, Hf.
Qed.

Lemma missing_image_400_witness :
  gemini_predict Demo.world Demo.gemini
    (Demo.upload POST "/api/gemini-predict" None (Some "food?"))
  = ([], inr {| status := 400;
                body := JsonBody
                  (JObject [("error", JString "No image file provided")]) |}).
Proof.
  apply missing_image_400; reflexivity.
Defined.

(** C3: a POST request with an [image] file whose [prompt] field is absent
    or empty is answered 400 with the body
    [{"error": "No text prompt provided"}]. *)
Theorem missing_prompt_400 (w : World) (c : Client) (request : Request)
    (file : list Byte.byte) :
  method request = POST ->
  files request !! "image" = Some file ->
  form request !! "prompt" = None \/ form request !! "prompt" = Some "" ->
  gemini_predict w c request
  = ([], inr {| status := 400;
                body := JsonBody
                  (JObject [("error", JString "No text prompt provided")]) |}).
Proof.
  intros Hm Hf Hp. unfold gemini_predict. rewrite Hm, Hf.
  now destruct Hp as [-> | ->].
Qed.

Lemma missing_prompt_400_witness :
  gemini_predict Demo.world Demo.gemini
    (Demo.upload POST "/api/gemini-predict" (Some Demo.jpeg) None)
  = ([], inr {| status := 400;
                body := JsonBody
                  (JObject [("error", JString "No text prompt provided")]) |})
  /\
  gemini_predict Demo.world Demo.gemini
    (Demo.upload POST "/api/gemini-predict" (Some Demo.jpeg) (Some ""))
  = ([], inr {| status := 400;
                body := JsonBody
                  (JObject [("error", JString "No text prompt provided")]) |}).
Proof.
  split.
  - apply (missing_prompt_400 _ _ _ Demo.jpeg);
      [reflexivity | reflexivity | left; reflexivity].
  - apply (missing_prompt_400 _ _ _ Demo.jpeg);
      [reflexivity | reflexivity | right; reflexivity].
Defined.

(** C10: the image check comes first. A POST request with neither field is
    answered with the image error, not the prompt error; and whenever the
    answer is the prompt error, the request did carry an [image] file. *)
Theorem image_check_first (w : World) (c : Client) (request : Request) :
  method request = POST ->
  (files request !! "image" = None -> form request !! "prompt" = None ->
   outcome (gemini_predict w c request)
   = inr {| status := 400;
            body := JsonBody
              (JObject [("error", JString "No image file provided")]) |}
   /\ outcome (gemini_predict w c request)
      <> inr {| status := 400;
                body := JsonBody
                  (JObject [("error", JString "No text prompt provided")]) |})
  /\ (outcome (gemini_predict w c request)
      = inr {| status := 400;
               body := JsonBody
                 (JObject [("error", JString "No text prompt provided")]) |} ->
      is_Some (files request !! "image")).
Proof.
  intros Hm. unfold gemini_predict. rewrite Hm. cbn [Method_eqb].
  destruct (files request !! "image") as [file|].
  - split; [discriminate | eauto].
  - split; [intros _ _; split; [reflexivity | discriminate] | discriminate].
Qed.

Lemma image_check_first_witness :
  outcome (gemini_predict Demo.world Demo.gemini
             (Demo.upload POST "/api/gemini-predict" None None))
  = inr {| status := 400;
           body := JsonBody
             (JObject [("error", JString "No image file provided")]) |}
  /\ is_Some (files (Demo.upload POST "/api/gemini-predict" (Some Demo.jpeg)
                       None) !! "image").
Proof.
  split.
  - apply (image_check_first Demo.world Demo.gemini
             (Demo.upload POST "/api/gemini-predict" None None));
      reflexivity.
  - apply (image_check_first Demo.world Demo.gemini
             (Demo.upload POST "/api/gemini-predict" (Some Demo.jpeg) None));
      reflexivity.
Defined.

(** ** Failures inside the [try] statement *)

(** C4: when the call of the model raises, the handler first writes an
    error line to the log and then answers 500 with a JSON object that has
    the single member [error]: the vendor's message after a fixed prefix
    when the exception is an [APIError], a fixed generic message for any
    other exception. *)
Theorem model_failure_500 (w : World) (c : Client) (request : Request)
    (file : list Byte.byte) (prompt : string) (image : Image) (e : Exn) :
  method request = POST ->
  files request !! "image" = Some file ->
  form request !! "prompt" = Some prompt ->
  prompt <> "" ->
  Image_open w file = inr image ->
  generate_content c "gemini-2.5-flash" [Text prompt; Picture image] = inl e ->
  exists (logged msg : string) (r : Response),
    gemini_predict w c request
    = ([EvLog INFO ("Received image and prompt: " ++ prompt
                    ++ ". Sending request to Gemini...");
        EvGenerateContent "gemini-2.5-flash" [Text prompt; Picture image];
        EvLog ERROR logged], inr r)
    /\ status r = 500%Z
    /\ body r = JsonBody (JObject [("error", JString msg)])
    /\ is_json (body r) = true
    /\ (forall m s, e = APIError m s ->
        msg = "Gemini API service failed: " ++ m)
    /\ (is_APIError e = false ->
        msg = "Internal AI prediction service failed.").
Proof.
  intros Hm Hf Hp Hne Hi Hg.
  rewrite (gemini_predict_checked w c request file prompt)
    by auto using POST_not_OPTIONS.
  rewrite (predict_body_raises w c file prompt image e Hi Hg).
  destruct e as [m s|s|s|s|s]; cbn;
    do 3 eexists; (split; [reflexivity|]);
    repeat split; try discriminate; try reflexivity.
  intros m' s' H. now injection H as -> ->.
Qed.

Lemma model_failure_500_witness :
  exists (logged msg : string) (r : Response),
    gemini_predict Demo.world Demo.gemini
      (Demo.upload POST "/api/gemini-predict" (Some Demo.jpeg) (Some "fail"))
    = ([EvLog INFO ("Received image and prompt: " ++ "fail"
                    ++ ". Sending request to Gemini...");
        EvGenerateContent "gemini-2.5-flash"
          [Text "fail"; Picture (PILImage Demo.jpeg)];
        EvLog ERROR logged], inr r)
    /\ status r = 500%Z
    /\ body r = JsonBody (JObject [("error", JString msg)])
    /\ is_json (body r) = true
    /\ (forall m s,
        APIError "quota exceeded" "429 RESOURCE_EXHAUSTED. quota exceeded"
        = APIError m s ->
        msg = "Gemini API service failed: " ++ m)
    /\ (is_APIError
          (APIError "quota exceeded" "429 RESOURCE_EXHAUSTED. quota exceeded")
        = false ->
        msg = "Internal AI prediction service failed.").
Proof.
  apply (model_failure_500 Demo.world Demo.gemini _ Demo.jpeg "fail"
           (PILImage Demo.jpeg)).
  - reflexivity.
  - reflexivity.
  - reflexivity.
  - discriminate.
  - reflexivity.
  - reflexivity.
Defined.

(** C5: when a request gets as far as the upload being opened and Pillow
    cannot decode it as an image, and when any other exception that is not
    an [APIError] is raised while the handler works on the request, the
    error is logged and the answer is 500 with the generic message, not
    400. *)
Theorem undecodable_or_fault_500 (w : World) (c : Client) (request : Request)
    (file : list Byte.byte) (prompt : string) :
  method request = POST ->
  files request !! "image" = Some file ->
  form request !! "prompt" = Some prompt ->
  prompt <> "" ->
  (forall msg, Image_open w file = inl msg ->
     gemini_predict w c request
     = ([EvLog ERROR ("Internal Server Error: " ++ msg)],
        inr {| status := 500;
               body := JsonBody
                 (JObject [("error",
                    JString "Internal AI prediction service failed.")]) |}))
  /\ (forall e, outcome (predict_body w c file prompt) = inl e ->
      is_APIError e = false ->
      gemini_predict w c request
      = ((trace (predict_body w c file prompt)
            ++ [EvLog ERROR ("Internal Server Error: " ++ str e)])%list,
         inr {| status := 500;
                body := JsonBody
                  (JObject [("error",
                     JString "Internal AI prediction service failed.")]) |})).
Proof.
  intros Hm Hf Hp Hne.
  rewrite (gemini_predict_checked w c request file prompt)
    by auto using POST_not_OPTIONS.
  split.
  - intros msg Hi. now rewrite (predict_body_undecodable w c file prompt msg Hi).
  - intros e He Hapi. rewrite (try_except_raised _ _ e He).
    destruct e; [discriminate | reflexivity..].
Qed.

Lemma undecodable_or_fault_500_witness :
  gemini_predict Demo.world Demo.gemini
    (Demo.upload POST "/api/gemini-predict" (Some Demo.garbage) (Some "food?"))
  = ([EvLog ERROR "Internal Server Error: cannot identify image file"],
     inr {| status := 500;
            body := JsonBody
              (JObject [("error",
                 JString "Internal AI prediction service failed.")]) |})
  /\
  gemini_predict Demo.world Demo.gemini
    (Demo.upload POST "/api/gemini-predict" (Some Demo.jpeg) (Some "empty"))
  = ([EvLog INFO "Received image and prompt: empty. Sending request to Gemini...";
      EvGenerateContent "gemini-2.5-flash"
        [Text "empty"; Picture (PILImage Demo.jpeg)];
      EvLog ERROR
        "Internal Server Error: argument of type 'NoneType' is not iterable"],
     inr {| status := 500;
            body := JsonBody
              (JObject [("error",
                 JString "Internal AI prediction service failed.")]) |}).
Proof.
  split.
  - apply (undecodable_or_fault_500 Demo.world Demo.gemini
             (Demo.upload POST "/api/gemini-predict" (Some Demo.garbage)
                (Some "food?")) Demo.garbage "food?");
      [reflexivity | reflexivity | reflexivity | discriminate | reflexivity].
  - exact (proj2 (undecodable_or_fault_500 Demo.world Demo.gemini
                    (Demo.upload POST "/api/gemini-predict" (Some Demo.jpeg)
                       (Some "empty")) Demo.jpeg "empty"
                    eq_refl eq_refl eq_refl ltac:(discriminate))
             (TypeError "argument of type 'NoneType' is not iterable")
             eq_refl eq_refl).
Defined.

(** ** The status route *)

(** C6: a GET request to [/] is answered 200 with the body
    [{"status": "ok", "service": "Gemini NeuroSort API"}], whatever the
    request carries and whatever the model's client would do; no call is
    made and nothing is logged. *)
Theorem home_always_ok (w : World) (c : Client) (request : Request) :
  method request = GET ->
  path request = "/" ->
  dispatch_request w c request
  = ([], inr {| status := 200;
                body := JsonBody
                  (JObject [("status", JString "ok");
                            ("service", JString "Gemini NeuroSort API")]) |}).
Proof.
  intros Hm Hp. unfold dispatch_request. now rewrite Hp, Hm.
Qed.

Lemma home_always_ok_witness :
  dispatch_request Demo.world Demo.gemini
    (Demo.upload GET "/" (Some Demo.garbage) (Some "fail"))
  = ([], inr {| status := 200;
                body := JsonBody
                  (JObject [("status", JString "ok");
                            ("service", JString "Gemini NeuroSort API")]) |}).
Proof.
  apply home_always_ok; reflexivity.
Defined.

(** ** Effects of a request *)

(** What the handler does to the outside: log lines and calls of the model,
    and a call exactly when the request gets that far. The handler itself
    never raises, and a request answered 400 did not get that far. *)
Lemma gemini_predict_effects (w : World) (c : Client) (request : Request) :
  Forall (fun ev => is_log ev || is_outbound ev = true)
    (trace (gemini_predict w c request))
  /\ outbound_calls (trace (gemini_predict w c request))
     = (if reaches_model w request then 1 else 0)%nat
  /\ exists r, outcome (gemini_predict w c request) = inr r
       /\ (status r = 400%Z -> reaches_model w request = false).
Proof.
  unfold gemini_predict, reaches_model.
  destruct (Method_eqb (method request) OPTIONS); cbn [negb andb].
  { repeat split; [constructor | eexists; split; [reflexivity | auto]]. }
  destruct (files request !! "image") as [file|].
  2:{ repeat split; [constructor | eexists; split; [reflexivity | auto]]. }
  destruct (form request !! "prompt") as [[|a prompt]|].
  1,3: repeat split; [constructor | eexists; split; [reflexivity | auto]].
  unfold predict_body, open_image, models_generate_content.
  destruct (Image_open w file) as [msg|image].
  { cbn. repeat split; [repeat constructor | eexists; split; [reflexivity | auto]]. }
  cbn [bind ret raise emit lift logger_info app].
  destruct (generate_content c _ _) as [e|[[s|]]].
  - destruct e; cbn;
      (repeat split; [repeat constructor
                     | eexists; split; [reflexivity | discriminate]]).
  - cbn. repeat split;
      [repeat constructor | eexists; split; [reflexivity | discriminate]].
  - cbn. repeat split;
      [repeat constructor | eexists; split; [reflexivity | discriminate]].
Qed.

Lemma no_env_read_in (key : string) (t : list Event) :
  Forall (fun ev => is_log ev || is_outbound ev = true) t ->
  count (reads_env key) t = 0%nat.
Proof.
  unfold count. induction 1 as [|ev t Hev _ IH]; [reflexivity|].
  destruct ev; simpl in *; try discriminate; exact IH.
Qed.

(** A request is answered by the framework, by [home], or by the handler. *)
Lemma dispatch_request_cases (w : World) (c : Client) (request : Request) :
  trace (dispatch_request w c request) = []
  \/ (path request = "/api/gemini-predict"
      /\ dispatch_request w c request = gemini_predict w c request).
Proof.
  unfold dispatch_request, match_rule, url_map. cbn [find rule].
  destruct (String.eqb "/" (path request)); [|
    destruct (String.eqb "/api/gemini-predict" (path request)) eqn:E].
  - destruct (method request); cbn; auto.
  - apply String.eqb_eq in E. destruct (method request); cbn; auto.
  - now left.
Qed.

(** C9, as the code has it: a request to the prediction endpoint makes at
    most one call of the model, and exactly one when it is not a preflight,
    carries an image and a non-empty prompt, and the image opens; a request
    answered 400 makes none. Log lines are the handler's only other
    effect. *)
Theorem at_most_one_outbound_call (w : World) (c : Client) (request : Request) :
  (outbound_calls (trace (gemini_predict w c request)) <= 1)%nat
  /\ (outbound_calls (trace (gemini_predict w c request)) = 1%nat
      <-> reaches_model w request = true)
  /\ (forall r, outcome (gemini_predict w c request) = inr r ->
      status r = 400%Z ->
      outbound_calls (trace (gemini_predict w c request)) = 0%nat)
  /\ Forall (fun ev => is_log ev = true \/ is_outbound ev = true)
       (trace (gemini_predict w c request)).
Proof.
  destruct (gemini_predict_effects w c request) as (Hall & Hn & r & Hr & H400).
  rewrite Hn. repeat split.
  - destruct (reaches_model w request); lia.
  - destruct (reaches_model w request); [reflexivity | discriminate].
  - now intros ->.
  - intros r' Hr' Hs. rewrite Hr in Hr'. injection Hr' as <-.
    now rewrite (H400 Hs).
  - eapply Forall_impl; [exact Hall|]. intros ev H.
    now apply orb_true_iff in H.
Qed.

Lemma at_most_one_outbound_call_witness :
  outbound_calls
    (trace (gemini_predict Demo.world Demo.gemini
              (Demo.upload POST "/api/gemini-predict" (Some Demo.jpeg)
                 (Some "food?")))) = 1%nat
  /\ outbound_calls
       (trace (gemini_predict Demo.world Demo.gemini
                 (Demo.upload POST "/api/gemini-predict" (Some Demo.jpeg)
                    None))) = 0%nat.
Proof.
  split.
  - apply at_most_one_outbound_call. reflexivity.
  - eapply at_most_one_outbound_call; reflexivity.
Defined.

(** A request without an image is answered 400 and the model is not
    called. *)
Lemma rejected_request_makes_no_call :
  exists r,
    gemini_predict Demo.world Demo.gemini
      (Demo.upload POST "/api/gemini-predict" None (Some "food?"))
    = ([], inr r)
    /\ status r = 400%Z
    /\ outbound_calls
         (trace (gemini_predict Demo.world Demo.gemini
                   (Demo.upload POST "/api/gemini-predict" None
                      (Some "food?")))) = 0%nat
    /\ outbound_calls
         (trace (gemini_predict Demo.world Demo.gemini
                   (Demo.upload POST "/api/gemini-predict" None
                      (Some "food?")))) <> 1%nat.
Proof. eexists. repeat split. discriminate. Qed.

(** ** The route of the prediction endpoint *)

(** C8, as the code has it: the prediction endpoint is routed at
    [/api/gemini-predict]. A POST request there runs the handler, which
    reads nothing of the request but its method, the [image] file and the
    [prompt] field; an OPTIONS request there is answered 204 with an empty
    body. *)
Theorem predict_route (w : World) (c : Client) (request : Request) :
  path request = "/api/gemini-predict" ->
  (method request = POST ->
   dispatch_request w c request = gemini_predict w c request)
  /\ (method request = OPTIONS ->
      dispatch_request w c request
      = ([], inr {| status := 204; body := TextBody "" |}))
  /\ (forall request',
      method request' = method request ->
      files request' !! "image" = files request !! "image" ->
      form request' !! "prompt" = form request !! "prompt" ->
      gemini_predict w c request' = gemini_predict w c request).
Proof.
  intros Hp. unfold dispatch_request. rewrite Hp. repeat split.
  - now intros ->.
  - intros Hm. rewrite Hm. cbn. unfold gemini_predict. now rewrite Hm.
  - intros request' Hm Hf Hq. unfold gemini_predict. now rewrite Hm, Hf, Hq.
Qed.

Lemma predict_route_witness :
  dispatch_request Demo.world Demo.gemini
    (Demo.upload POST "/api/gemini-predict" (Some Demo.jpeg) (Some "food?"))
  = gemini_predict Demo.world Demo.gemini
      (Demo.upload POST "/api/gemini-predict" (Some Demo.jpeg) (Some "food?"))
  /\ dispatch_request Demo.world Demo.gemini
       (Demo.upload OPTIONS "/api/gemini-predict" None None)
     = ([], inr {| status := 204; body := TextBody "" |}).
Proof.
  split.
  - apply (predict_route Demo.world Demo.gemini
             (Demo.upload POST "/api/gemini-predict" (Some Demo.jpeg)
                (Some "food?"))); reflexivity.
  - apply (predict_route Demo.world Demo.gemini
             (Demo.upload OPTIONS "/api/gemini-predict" None None));
      reflexivity.
Defined.

(** Nothing is routed at [/api/predict]: a well-formed POST request and a
    preflight sent there are both answered 404. *)
Lemma api_predict_is_not_routed :
  dispatch_request Demo.world Demo.gemini
    (Demo.upload POST "/api/predict" (Some Demo.jpeg) (Some "food?"))
  = ([], inr {| status := 404; body := TextBody "Not Found" |})
  /\ dispatch_request Demo.world Demo.gemini
       (Demo.upload OPTIONS "/api/predict" None None)
     = ([], inr {| status := 404; body := TextBody "Not Found" |}).
Proof. split; reflexivity. Qed.

(** ** Start of the process *)

(** C7, as the code has it: when the credential is absent or empty once
    [.env] has been loaded, the error is logged and the module body raises
    [RuntimeError], so nothing is served; when it is present and not empty,
    nothing is logged and start-up goes on to build the SDK client, and
    serves once the client is built. The program reads the credential once,
    at start-up, and never while it answers a request. *)
Theorem credential_checked_at_startup (w : World)
    (dotenv environ0 : gmap string string) :
  (load_dotenv dotenv environ0 !! "GEMINI_API_KEY" = None
   \/ load_dotenv dotenv environ0 !! "GEMINI_API_KEY" = Some "" ->
   main w dotenv environ0
   = ([EvGetenv "GEMINI_API_KEY";
       EvLog ERROR
         "GEMINI_API_KEY is not set. Please set the environment variable."],
      inl (RuntimeError "GEMINI_API_KEY is not set")))
  /\ (forall k, load_dotenv dotenv environ0 !! "GEMINI_API_KEY" = Some k ->
      k <> "" ->
      module_body w dotenv environ0
      = ([EvGetenv "GEMINI_API_KEY"],
         match genai_Client w (load_dotenv dotenv environ0) with
         | inl e => inl e
         | inr c => inr {| API_KEY := k; client := c |}
         end)
      /\ forall c, genai_Client w (load_dotenv dotenv environ0) = inr c ->
         main w dotenv environ0
         = ([EvGetenv "GEMINI_API_KEY";
             EvLog INFO "Starting Waitress server on http://0.0.0.0:5000...";
             EvServe "0.0.0.0" 5000],
            inr {| API_KEY := k; client := c |}))
  /\ count (reads_env "GEMINI_API_KEY") (trace (main w dotenv environ0)) = 1%nat
  /\ (forall c request,
      count (reads_env "GEMINI_API_KEY")
        (trace (dispatch_request w c request)) = 0%nat).
Proof.
  unfold main, module_body, os_getenv.
  cbn [bind ret raise emit lift logger_info logger_error app].
  repeat split.
  - now intros [-> | ->].
  - rewrite H. destruct k; [contradiction|].
    now destruct (genai_Client w _).
  - intros c Hc. rewrite H. destruct k; [contradiction|]. now rewrite Hc.
  - destruct (load_dotenv dotenv environ0 !! "GEMINI_API_KEY") as [[|a k]|];
      try reflexivity.
    now destruct (genai_Client w _).
  - intros c request.
    destruct (dispatch_request_cases w c request) as [-> | [_ ->]];
      [reflexivity|].
    apply no_env_read_in, gemini_predict_effects.
Qed.

Lemma credential_checked_at_startup_witness :
  main Demo.world ∅ ∅
  = ([EvGetenv "GEMINI_API_KEY";
      EvLog ERROR
        "GEMINI_API_KEY is not set. Please set the environment variable."],
     inl (RuntimeError "GEMINI_API_KEY is not set"))
  /\ main Demo.world {[ "GEMINI_API_KEY" := "k-123" ]} ∅
     = ([EvGetenv "GEMINI_API_KEY";
         EvLog INFO "Starting Waitress server on http://0.0.0.0:5000...";
         EvServe "0.0.0.0" 5000],
        inr {| API_KEY := "k-123"; client := Demo.gemini |}).
Proof.
  split.
  - exact (proj1 (credential_checked_at_startup Demo.world ∅ ∅)
             (or_introl eq_refl)).
  - exact (proj2 (proj1 (proj2 (credential_checked_at_startup Demo.world
                                  {[ "GEMINI_API_KEY" := "k-123" ]} ∅))
                    "k-123" eq_refl ltac:(discriminate))
             Demo.gemini eq_refl).
Defined.

(** A credential that is set to the empty string is present, and start-up
    refuses all the same. *)
Lemma empty_credential_refuses :
  load_dotenv ∅ {[ "GEMINI_API_KEY" := "" ]} !! "GEMINI_API_KEY" = Some ""
  /\ main Demo.world ∅ {[ "GEMINI_API_KEY" := "" ]}
     = ([EvGetenv "GEMINI_API_KEY";
         EvLog ERROR
           "GEMINI_API_KEY is not set. Please set the environment variable."],
        inl (RuntimeError "GEMINI_API_KEY is not set")).
Proof. split; reflexivity. Qed.

(** * Further properties of the handler *)

(** ** The paths through [gemini_predict] *)

(** The [try] statement when the model's response has no text. *)
Lemma predict_body_no_text (w : World) (c : Client) (file : list Byte.byte)
    (prompt : string) (image : Image) :
  Image_open w file = inr image ->
  generate_content c "gemini-2.5-flash" [Text prompt; Picture image]
    = inr {| text := None |} ->
  predict_body w c file prompt =
  ([EvLog INFO ("Received image and prompt: " ++ prompt
                ++ ". Sending request to Gemini...");
    EvGenerateContent "gemini-2.5-flash" [Text prompt; Picture image]],
   inl (TypeError "argument of type 'NoneType' is not iterable")).
Proof.
  intros Hi Hg. unfold predict_body, open_image, models_generate_content.
  rewrite Hi. cbn [bind ret raise emit lift logger_info app].
  rewrite Hg. reflexivity.
Qed.

(** Both [except] clauses log one error line and answer 500 with a JSON
    object whose only member is [error]. *)
Lemma predict_except_shape (e : Exn) :
  exists logged msg,
    predict_except e
    = ([EvLog ERROR logged],
       inr {| status := 500;
              body := JsonBody (JObject [("error", JString msg)]) |}).
Proof. destruct e; cbn; eauto. Qed.

(** Which of the early returns a request takes, or that it enters the [try]
    statement. *)
Lemma gemini_predict_paths (w : World) (c : Client) (request : Request) :
  (method request = OPTIONS
   /\ gemini_predict w c request
      = ([], inr {| status := 204; body := TextBody "" |}))
  \/ (method request <> OPTIONS
      /\ files request !! "image" = None
      /\ gemini_predict w c request
         = ([], inr {| status := 400;
                       body := JsonBody
                         (JObject [("error",
                            JString "No image file provided")]) |}))
  \/ (exists file,
      method request <> OPTIONS
      /\ files request !! "image" = Some file
      /\ (form request !! "prompt" = None
          \/ form request !! "prompt" = Some "")
      /\ gemini_predict w c request
         = ([], inr {| status := 400;
                       body := JsonBody
                         (JObject [("error",
                            JString "No text prompt provided")]) |}))
  \/ (exists file prompt,
      method request <> OPTIONS
      /\ files request !! "image" = Some file
      /\ form request !! "prompt" = Some prompt
      /\ prompt <> ""
      /\ gemini_predict w c request
         = try_except (predict_body w c file prompt) predict_except).
Proof.
  unfold gemini_predict.
  destruct (Method_eqb (method request) OPTIONS) eqn:Em.
  { left. apply Method_eqb_eq in Em. auto. }
  assert (method request <> OPTIONS) as Hm.
  { intros H. apply Method_eqb_eq in H. congruence. }
  right. destruct (files request !! "image") as [file|]; [|left; auto].
  right. destruct (form request !! "prompt") as [[|a prompt]|].
  - left. exists file. auto.
  - right. exists file, (String a prompt). repeat split; auto; try discriminate.
  - left. exists file. auto.
Qed.

(** How the [try] statement ends, once entered. *)
Lemma try_paths (w : World) (c : Client) (file : list Byte.byte)
    (prompt : string) :
  let received :=
    EvLog INFO ("Received image and prompt: " ++ prompt
                ++ ". Sending request to Gemini...") in
  (exists msg,
     Image_open w file = inl msg
     /\ try_except (predict_body w c file prompt) predict_except
        = ([EvLog ERROR ("Internal Server Error: " ++ msg)],
           inr {| status := 500;
                  body := JsonBody
                    (JObject [("error",
                       JString "Internal AI prediction service failed.")]) |}))
  \/ (exists image e,
      Image_open w file = inr image
      /\ generate_content c "gemini-2.5-flash" [Text prompt; Picture image]
         = inl e
      /\ try_except (predict_body w c file prompt) predict_except
         = (([received;
              EvGenerateContent "gemini-2.5-flash"
                [Text prompt; Picture image]]
             ++ trace (predict_except e))%list,
            outcome (predict_except e)))
  \/ (exists image,
      Image_open w file = inr image
      /\ generate_content c "gemini-2.5-flash" [Text prompt; Picture image]
         = inr {| text := None |}
      /\ try_except (predict_body w c file prompt) predict_except
         = ([received;
             EvGenerateContent "gemini-2.5-flash"
               [Text prompt; Picture image];
             EvLog ERROR
               "Internal Server Error: argument of type 'NoneType' is not iterable"],
            inr {| status := 500;
                   body := JsonBody
                     (JObject [("error",
                        JString
                          "Internal AI prediction service failed.")]) |}))
  \/ (exists image s,
      Image_open w file = inr image
      /\ generate_content c "gemini-2.5-flash" [Text prompt; Picture image]
         = inr {| text := Some s |}
      /\ try_except (predict_body w c file prompt) predict_except
         = ([received;
             EvGenerateContent "gemini-2.5-flash"
               [Text prompt; Picture image];
             EvLog INFO ("Prediction complete. Category: " ++ category_of s
                         ++ ". Response snippet: " ++ slice_to 50 s
                         ++ "...")],
            inr {| status := 200;
                   body := JsonBody
                     (JObject [("success", JBool true);
                               ("prediction", JString s);
                               ("category", JString (category_of s))]) |})).
Proof.
  intros received.
  destruct (Image_open w file) as [msg|image] eqn:Hi.
  { left. exists msg. split; [reflexivity|].
    now rewrite (predict_body_undecodable w c file prompt msg Hi). }
  right.
  destruct (generate_content c "gemini-2.5-flash" [Text prompt; Picture image])
    as [e|[[s|]]] eqn:Hg.
  - left. exists image, e. do 2 (split; [first [assumption | reflexivity]|]).
    rewrite (predict_body_raises w c file prompt image e Hi Hg).
    cbn [try_except]. now destruct (predict_except e).
  - right. right. exists image, s. do 2 (split; [first [assumption | reflexivity]|]).
    now rewrite (predict_body_answer w c file prompt image s Hi Hg).
  - right. left. exists image. do 2 (split; [first [assumption | reflexivity]|]).
    now rewrite (predict_body_no_text w c file prompt image Hi Hg).
Qed.

(** ** More on keywords and categories *)

Lemma str_app_assoc (a b c : string) : (a ++ b) ++ c = a ++ b ++ c.
Proof.
  induction a as [|x a IH]; [reflexivity|].
  change (String x ((a ++ b) ++ c) = String x (a ++ b ++ c)). now rewrite IH.
Qed.

Lemma occurs_context (kw s pre post : string) :
  occurs kw s -> occurs kw (pre ++ s ++ post).
Proof.
  intros [a [b ->]]. exists (pre ++ a), (b ++ post).
  now rewrite !str_app_assoc.
Qed.

Lemma occurs_trans (a b s : string) : occurs a b -> occurs b s -> occurs a s.
Proof.
  intros Hab [pre [post ->]]. now apply occurs_context.
Qed.

Lemma category_of_cases (s : string) :
  (occurs "Recyclable" s /\ category_of s = "Recyclable")
  \/ (~ occurs "Recyclable" s /\ occurs "Compost" s
      /\ category_of s = "Compost")
  \/ (~ occurs "Recyclable" s /\ ~ occurs "Compost" s
      /\ category_of s = "Non-Recyclable").
Proof.
  unfold category_of.
  destruct (str_in "Recyclable" s) eqn:HR.
  { left. split; [now apply str_in_spec | reflexivity]. }
  apply str_in_false in HR. right.
  destruct (str_in "Compost" s) eqn:HC.
  { left. repeat split; [assumption | now apply str_in_spec]. }
  apply str_in_false in HC. right. auto.
Qed.

(** X1: the label "Non-Recyclable" contains the keyword "Recyclable", so a
    text that spells out "Non-Recyclable" is put in the category
    "Recyclable"; the category "Non-Recyclable" is given exactly to the
    texts that contain neither "Recyclable" nor "Compost". *)
Theorem non_recyclable_label_is_shadowed (s : string) :
  (occurs "Non-Recyclable" s -> category_of s = "Recyclable")
  /\ (category_of s = "Non-Recyclable"
      <-> ~ occurs "Recyclable" s /\ ~ occurs "Compost" s).
Proof.
  split.
  - intros H. apply category_of_Recyclable.
    apply (occurs_trans _ "Non-Recyclable"); [|exact H].
    now exists "Non-", "".
  - split.
    + intros H.
      destruct (category_of_cases s) as [[_ E] | [[_ [_ E]] | [HR [HC _]]]];
        [rewrite E in H; discriminate.. | auto].
    + intros [HR HC]. now apply category_of_other.
Qed.

Lemma non_recyclable_label_is_shadowed_witness :
  category_of "This item is Non-Recyclable." = "Recyclable".
Proof.
  apply (non_recyclable_label_is_shadowed "This item is Non-Recyclable.").
  now exists "This item is ", ".".
Defined.

(** X2: text around an answer never takes a keyword away. If a text is put
    in "Recyclable", so is every text that contains it; if it is put in
    "Compost", a text that contains it is put in "Compost" or in
    "Recyclable", never in "Non-Recyclable". *)
Theorem category_in_context (s pre post : string) :
  (category_of s = "Recyclable" ->
   category_of (pre ++ s ++ post) = "Recyclable")
  /\ (category_of s = "Compost" ->
      category_of (pre ++ s ++ post) = "Compost"
      \/ category_of (pre ++ s ++ post) = "Recyclable").
Proof.
  split; intros H;
    destruct (category_of_cases s) as [[HR E] | [[HR [HC E]] | [HR [HC E]]]];
    rewrite E in H; try discriminate.
  - now apply category_of_Recyclable, occurs_context.
  - apply (occurs_context _ _ pre post) in HC.
    destruct (category_of_cases (pre ++ s ++ post))
      as [[_ E'] | [[_ [_ E']] | [_ [HC' _]]]]; auto.
    contradiction.
Qed.

Lemma category_in_context_witness :
  category_of ("Verdict: " ++ "Recyclable" ++ " (plastic bottle)")
  = "Recyclable"
  /\ (category_of ("Maybe " ++ "Compost" ++ ", maybe not") = "Compost"
      \/ category_of ("Maybe " ++ "Compost" ++ ", maybe not") = "Recyclable").
Proof.
  split.
  - apply (category_in_context "Recyclable" "Verdict: " " (plastic bottle)").
    reflexivity.
  - apply (category_in_context "Compost" "Maybe " ", maybe not").
    reflexivity.
Defined.

(** ** The snippet in the log *)

Lemma slice_to_code_points (n : nat) (s : string) :
  code_points (slice_to n s) = Nat.min n (code_points s).
Proof.
  revert n. induction s as [|a s IH]; intros n; cbn [slice_to code_points].
  - now rewrite Nat.min_0_r.
  - destruct (is_continuation a) eqn:Ea.
    + cbn [code_points]. rewrite Ea. apply IH.
    + destruct n as [|n]; [reflexivity|].
      cbn [code_points]. rewrite Ea, IH. reflexivity.
Qed.

(** The slice is a prefix that ends where a character ends: what follows it
    does not start with a continuation byte. *)
Lemma slice_to_prefix (n : nat) (s : string) :
  exists rest,
    s = slice_to n s ++ rest
    /\ match rest with
       | EmptyString => True
       | String a _ => is_continuation a = false
       end.
Proof.
  revert n. induction s as [|a s IH]; intros n; cbn [slice_to].
  - now exists "".
  - destruct (is_continuation a) eqn:Ea.
    + destruct (IH n) as [rest [H Hb]]. exists rest. split; [|exact Hb].
      change (String a s = String a (slice_to n s ++ rest)). now rewrite <- H.
    + destruct n as [|n].
      * exists (String a s). split; [reflexivity | exact Ea].
      * destruct (IH n) as [rest [H Hb]]. exists rest. split; [|exact Hb].
        change (String a s = String a (slice_to n s ++ rest)).
        now rewrite <- H.
Qed.

(** Fifty characters of which the last takes two bytes, then one more:
    the slice keeps both bytes of the fiftieth and stops. *)
Example slice_to_keeps_whole_character :
  let e_acute := String (ascii_of_nat 195) (String (ascii_of_nat 169) "") in
  let digits := "1234567890123456789012345678901234567890123456789" in
  slice_to 50 (digits ++ e_acute ++ "Z") = digits ++ e_acute
  /\ code_points (digits ++ e_acute ++ "Z") = 51%nat
  /\ String.length (digits ++ e_acute ++ "Z") = 52%nat.
Proof. repeat split. Qed.

(** ** What a request can lead to *)

(** Case analysis of a run of the handler: four early or late ends without
    a 200 answer, the two ends of a failed call, and the good end. *)
Ltac handler_paths w c request :=
  let E := fresh "E" in
  let T := fresh "T" in
  destruct (gemini_predict_paths w c request)
    as [[? E] | [[? [? E]] | [[? [? [? [? E]]]]
       | [?file [?prompt [? [? [? [? E]]]]]]]]];
  [ | | |
    pose proof (try_paths w c file prompt) as T; cbv zeta in T;
    destruct T as [[?msg [? T]] | [[?image [?e [? [? T]]]]
                  | [[?image [? [? T]]] | [?image [?s [? [? T]]]]]]];
    rewrite T in E; clear T;
    [ | let X := fresh "X" in
        destruct (predict_except_shape e) as [?logged [?emsg X]];
        rewrite X in E; clear X; cbn [app] in E
      | | ] ];
  rewrite E in *; clear E; cbn [trace outcome fst snd] in *.

(** X3: the handler answers 200 only when the request carried an image that
    opened and a non-empty prompt, and the model returned a text; the
    answer then carries that very text and its category, which is one of
    the three labels. *)
Theorem ok_only_with_model_text (w : World) (c : Client) (request : Request)
    (r : Response) :
  outcome (gemini_predict w c request) = inr r ->
  status r = 200%Z ->
  exists file prompt image s,
    method request <> OPTIONS
    /\ files request !! "image" = Some file
    /\ form request !! "prompt" = Some prompt
    /\ prompt <> ""
    /\ Image_open w file = inr image
    /\ generate_content c "gemini-2.5-flash" [Text prompt; Picture image]
       = inr {| text := Some s |}
    /\ body r = JsonBody (JObject [("success", JBool true);
                                   ("prediction", JString s);
                                   ("category", JString (category_of s))])
    /\ In (category_of s) labels.
Proof.
  intros Hr Hs. handler_paths w c request;
    injection Hr as <-; cbn in Hs; try discriminate.
  exists file, prompt, image, s. repeat split; auto.
  unfold labels.
  destruct (category_of_cases s) as [[_ ->] | [[_ [_ ->]] | [_ [_ ->]]]];
    cbn; auto.
Qed.

Lemma ok_only_with_model_text_witness :
  exists file prompt image s,
    method (Demo.upload POST "/api/gemini-predict" (Some Demo.jpeg)
              (Some "food?")) <> OPTIONS
    /\ files (Demo.upload POST "/api/gemini-predict" (Some Demo.jpeg)
                (Some "food?")) !! "image" = Some file
    /\ form (Demo.upload POST "/api/gemini-predict" (Some Demo.jpeg)
               (Some "food?")) !! "prompt" = Some prompt
    /\ prompt <> ""
    /\ Image_open Demo.world file = inr image
    /\ generate_content Demo.gemini "gemini-2.5-flash"
         [Text prompt; Picture image] = inr {| text := Some s |}
    /\ body {| status := 200;
               body := JsonBody
                 (JObject [("success", JBool true);
                           ("prediction", JString "Compost: a banana peel");
                           ("category", JString "Compost")]) |}
       = JsonBody (JObject [("success", JBool true);
                            ("prediction", JString s);
                            ("category", JString (category_of s))])
    /\ In (category_of s) labels.
Proof.
  apply (ok_only_with_model_text Demo.world Demo.gemini
           (Demo.upload POST "/api/gemini-predict" (Some Demo.jpeg)
              (Some "food?"))); reflexivity.
Defined.

(** X5: an error line is logged exactly when the answer is 500, once, and
    as the last thing the handler does. *)
Theorem error_logged_iff_500 (w : World) (c : Client) (request : Request)
    (r : Response) :
  outcome (gemini_predict w c request) = inr r ->
  count is_error_log (trace (gemini_predict w c request))
  = (if Z.eqb (status r) 500 then 1 else 0)%nat
  /\ (status r = 500%Z ->
      exists t msg,
        trace (gemini_predict w c request) = (t ++ [EvLog ERROR msg])%list
        /\ count is_error_log t = 0%nat).
Proof.
  intros Hr. handler_paths w c request; injection Hr as <-; cbn;
    (split; [reflexivity|]); try discriminate; intros _.
  - now exists [], ("Internal Server Error: " ++ msg).
  - now eexists [_; _], logged.
  - now eexists [_; _], _.
Qed.

Lemma error_logged_iff_500_witness :
  count is_error_log
    (trace (gemini_predict Demo.world Demo.gemini
              (Demo.upload POST "/api/gemini-predict" (Some Demo.jpeg)
                 (Some "crash")))) = 1%nat
  /\ count is_error_log
       (trace (gemini_predict Demo.world Demo.gemini
                 (Demo.upload POST "/api/gemini-predict" None
                    (Some "crash")))) = 0%nat.
Proof.
  split.
  - apply (error_logged_iff_500 Demo.world Demo.gemini
             (Demo.upload POST "/api/gemini-predict" (Some Demo.jpeg)
                (Some "crash"))
             {| status := 500;
                body := JsonBody
                  (JObject [("error",
                     JString "Internal AI prediction service failed.")]) |}).
    reflexivity.
  - apply (error_logged_iff_500 Demo.world Demo.gemini
             (Demo.upload POST "/api/gemini-predict" None (Some "crash"))
             {| status := 400;
                body := JsonBody
                  (JObject [("error", JString "No image file provided")]) |}).
    reflexivity.
Defined.

(** X6: a request that is turned away with 400, and a preflight answered
    204, leave no trace: nothing is logged, not even the rejection, and
    the model is not called. *)
Theorem rejections_are_silent (w : World) (c : Client) (request : Request)
    (r : Response) :
  outcome (gemini_predict w c request) = inr r ->
  status r = 400%Z \/ status r = 204%Z ->
  trace (gemini_predict w c request) = [].
Proof.
  intros Hr Hs. handler_paths w c request; injection Hr as <-; cbn in Hs;
    try reflexivity; destruct Hs; discriminate.
Qed.

Lemma rejections_are_silent_witness :
  trace (gemini_predict Demo.world Demo.gemini
           (Demo.upload POST "/api/gemini-predict" (Some Demo.jpeg) (Some "")))
  = [].
Proof.
  apply (rejections_are_silent Demo.world Demo.gemini
           (Demo.upload POST "/api/gemini-predict" (Some Demo.jpeg) (Some ""))
           {| status := 400;
              body := JsonBody
                (JObject [("error", JString "No text prompt provided")]) |}).
  - reflexivity.
  - left. reflexivity.
Defined.

(** ** What the model is sent *)

(** X7: whenever the handler calls the model, the call names the model
    [gemini-2.5-flash] and passes exactly two things, in this order: the
    request's [prompt] field, unchanged, and the image that Pillow opened
    from the uploaded [image] file. The call is the second event of the
    run, right after the log line that quotes the prompt. *)
Theorem model_receives_prompt_and_image (w : World) (c : Client)
    (request : Request) (model : string) (contents : list Content) :
  In (EvGenerateContent model contents) (trace (gemini_predict w c request)) ->
  model = "gemini-2.5-flash"
  /\ exists file prompt image rest,
       files request !! "image" = Some file
       /\ form request !! "prompt" = Some prompt
       /\ Image_open w file = inr image
       /\ contents = [Text prompt; Picture image]
       /\ trace (gemini_predict w c request)
          = EvLog INFO ("Received image and prompt: " ++ prompt
                        ++ ". Sending request to Gemini...")
            :: EvGenerateContent model contents :: rest.
Proof.
  intros Hin. handler_paths w c request; cbn in Hin;
    repeat match goal with
           | H : _ \/ _ |- _ => destruct H
           | H : False |- _ => destruct H
           | H : EvLog _ _ = EvGenerateContent _ _ |- _ => discriminate H
           | H : EvGenerateContent _ _ = EvGenerateContent _ _ |- _ =>
               injection H as <- <-
           end;
    (split; [reflexivity|]);
    exists file, prompt, image; eexists; repeat split; eauto.
Qed.

Lemma model_receives_prompt_and_image_witness :
  "gemini-2.5-flash" = "gemini-2.5-flash"
  /\ exists file prompt image rest,
       files (Demo.upload POST "/api/gemini-predict" (Some Demo.jpeg)
                (Some "food?")) !! "image" = Some file
       /\ form (Demo.upload POST "/api/gemini-predict" (Some Demo.jpeg)
                  (Some "food?")) !! "prompt" = Some prompt
       /\ Image_open Demo.world file = inr image
       /\ [Text "food?"; Picture (PILImage Demo.jpeg)]
          = [Text prompt; Picture image]
       /\ trace (gemini_predict Demo.world Demo.gemini
                   (Demo.upload POST "/api/gemini-predict" (Some Demo.jpeg)
                      (Some "food?")))
          = EvLog INFO ("Received image and prompt: " ++ prompt
                        ++ ". Sending request to Gemini...")
            :: EvGenerateContent "gemini-2.5-flash"
                 [Text "food?"; Picture (PILImage Demo.jpeg)] :: rest.
Proof.
  apply (model_receives_prompt_and_image Demo.world Demo.gemini
           (Demo.upload POST "/api/gemini-predict" (Some Demo.jpeg)
              (Some "food?"))).
  cbn. right. left. reflexivity.
Defined.

(** X8: when the model answers without any text, the call has been made and
    the request still fails: the missing text raises inside the [try]
    statement, an error line is logged, and the answer is 500 with the
    generic message. *)
Theorem answer_without_text_500 (w : World) (c : Client) (request : Request)
    (file : list Byte.byte) (prompt : string) (image : Image) :
  method request = POST ->
  files request !! "image" = Some file ->
  form request !! "prompt" = Some prompt ->
  prompt <> "" ->
  Image_open w file = inr image ->
  generate_content c "gemini-2.5-flash" [Text prompt; Picture image]
    = inr {| text := None |} ->
  exists logged,
    gemini_predict w c request
    = ([EvLog INFO ("Received image and prompt: " ++ prompt
                    ++ ". Sending request to Gemini...");
        EvGenerateContent "gemini-2.5-flash" [Text prompt; Picture image];
        EvLog ERROR logged],
       inr {| status := 500;
              body := JsonBody
                (JObject [("error",
                   JString "Internal AI prediction service failed.")]) |}).
Proof.
  intros Hm Hf Hp Hne Hi Hg.
  rewrite (gemini_predict_checked w c request file prompt)
    by auto using POST_not_OPTIONS.
  rewrite (predict_body_no_text w c file prompt image Hi Hg).
  eexists. reflexivity.
Qed.

Lemma answer_without_text_500_witness :
  exists logged,
    gemini_predict Demo.world Demo.gemini
      (Demo.upload POST "/api/gemini-predict" (Some Demo.jpeg) (Some "empty"))
    = ([EvLog INFO ("Received image and prompt: " ++ "empty"
                    ++ ". Sending request to Gemini...");
        EvGenerateContent "gemini-2.5-flash"
          [Text "empty"; Picture (PILImage Demo.jpeg)];
        EvLog ERROR logged],
       inr {| status := 500;
              body := JsonBody
                (JObject [("error",
                   JString "Internal AI prediction service failed.")]) |}).
Proof.
  apply (answer_without_text_500 Demo.world Demo.gemini _ Demo.jpeg "empty"
           (PILImage Demo.jpeg));
    [reflexivity | reflexivity | reflexivity | discriminate
    | reflexivity | reflexivity].
Defined.

(** X9: after a good answer the log holds the category and a snippet of
    the model's text: its first 50 characters, or the whole text when it
    has fewer. The snippet ends where a character ends, and the rest of the
    text is not logged. *)
Theorem log_holds_first_50_characters (w : World) (c : Client)
    (request : Request) (file : list Byte.byte) (prompt : string)
    (image : Image) (s : string) :
  method request = POST ->
  files request !! "image" = Some file ->
  form request !! "prompt" = Some prompt ->
  prompt <> "" ->
  Image_open w file = inr image ->
  generate_content c "gemini-2.5-flash" [Text prompt; Picture image]
    = inr {| text := Some s |} ->
  exists shown rest,
    s = shown ++ rest
    /\ code_points shown = Nat.min 50 (code_points s)
    /\ match rest with
       | EmptyString => True
       | String a _ => is_continuation a = false
       end
    /\ trace (gemini_predict w c request)
       = [EvLog INFO ("Received image and prompt: " ++ prompt
                      ++ ". Sending request to Gemini...");
          EvGenerateContent "gemini-2.5-flash" [Text prompt; Picture image];
          EvLog INFO ("Prediction complete. Category: " ++ category_of s
                      ++ ". Response snippet: " ++ shown ++ "...")].
Proof.
  intros Hm Hf Hp Hne Hi Hg.
  rewrite (gemini_predict_checked w c request file prompt)
    by auto using POST_not_OPTIONS.
  rewrite (predict_body_answer w c file prompt image s Hi Hg).
  destruct (slice_to_prefix 50 s) as [rest [Hrest Hb]].
  exists (slice_to 50 s), rest. split; [exact Hrest|].
  split; [apply slice_to_code_points|]. split; [exact Hb | reflexivity].
Qed.

Lemma log_holds_first_50_characters_witness :
  exists shown rest,
    "Compost: a banana peel" = shown ++ rest
    /\ code_points shown = Nat.min 50 (code_points "Compost: a banana peel")
    /\ match rest with
       | EmptyString => True
       | String a _ => is_continuation a = false
       end
    /\ trace (gemini_predict Demo.world Demo.gemini
                (Demo.upload POST "/api/gemini-predict" (Some Demo.jpeg)
                   (Some "food?")))
       = [EvLog INFO ("Received image and prompt: " ++ "food?"
                      ++ ". Sending request to Gemini...");
          EvGenerateContent "gemini-2.5-flash"
            [Text "food?"; Picture (PILImage Demo.jpeg)];
          EvLog INFO ("Prediction complete. Category: "
                      ++ category_of "Compost: a banana peel"
                      ++ ". Response snippet: " ++ shown ++ "...")].
Proof.
  apply (log_holds_first_50_characters Demo.world Demo.gemini _ Demo.jpeg
           "food?" (PILImage Demo.jpeg));
    [reflexivity | reflexivity | reflexivity | discriminate
    | reflexivity | reflexivity].
Defined.

(** ** Routing, seen from outside *)

(** Where a request goes: to no rule, to [home] or Flask's own OPTIONS
    answer on [/], to the handler, or to a 405. *)
Lemma dispatch_paths (w : World) (c : Client) (request : Request) :
  (path request <> "/" /\ path request <> "/api/gemini-predict"
   /\ dispatch_request w c request = ([], inr not_found))
  \/ (path request = "/"
      /\ exists r, dispatch_request w c request = ([], inr r)
         /\ (method request = POST \/ method request = PUT
             \/ method request = DELETE \/ method request = PATCH ->
             r = method_not_allowed))
  \/ (path request = "/api/gemini-predict"
      /\ (method request = POST \/ method request = OPTIONS)
      /\ dispatch_request w c request = gemini_predict w c request)
  \/ (path request = "/api/gemini-predict"
      /\ method request <> POST /\ method request <> OPTIONS
      /\ dispatch_request w c request = ([], inr method_not_allowed)).
Proof.
  unfold dispatch_request, match_rule, url_map. cbn [find rule].
  destruct (String.eqb "/" (path request)) eqn:E1.
  { apply String.eqb_eq in E1. right. left. split; [auto|].
    destruct (method request); cbn; eexists; split; try reflexivity;
      intros [H | [H | [H | H]]]; try discriminate H; reflexivity. }
  apply String.eqb_neq in E1.
  destruct (String.eqb "/api/gemini-predict" (path request)) eqn:E2.
  - apply String.eqb_eq in E2. right. right.
    destruct (method request) eqn:Em; cbn;
      first [ left; repeat split; auto; fail
            | right; repeat split; auto; discriminate ].
  - apply String.eqb_neq in E2. left. repeat split; congruence.
Qed.

(** X10: seen from the network, the model is called for one kind of request
    only: a POST to [/api/gemini-predict] that carries an image that opens
    and a non-empty prompt. Any other path or method makes no call, and no
    request makes more than one. *)
Theorem only_a_post_to_the_route_calls_the_model (w : World) (c : Client)
    (request : Request) :
  (outbound_calls (trace (dispatch_request w c request)) = 1%nat
   <-> path request = "/api/gemini-predict"
       /\ method request = POST
       /\ reaches_model w request = true)
  /\ (outbound_calls (trace (dispatch_request w c request)) <= 1)%nat.
Proof.
  destruct (dispatch_paths w c request)
    as [[Hp1 [Hp2 ->]] | [[Hp [r [-> _]]] | [[Hp [Hm ->]] | [Hp [Hm1 [Hm2 ->]]]]]].
  - cbn. split; [|lia]. split; [discriminate | intros [? _]; contradiction].
  - cbn. split; [|lia]. split; [discriminate|].
    intros [H _]. rewrite Hp in H. discriminate.
  - destruct (gemini_predict_effects w c request) as (_ & -> & _).
    destruct Hm as [Hm | Hm].
    + destruct (reaches_model w request); (split; [|lia]).
      * split; auto.
      * split; [discriminate | intros (_ & _ & H); discriminate].
    + unfold reaches_model. rewrite Hm. cbn. split; [|lia].
      split; [discriminate | intros (_ & H & _); discriminate].
  - cbn. split; [|lia]. split; [discriminate | intros (_ & H & _); contradiction].
Qed.

Lemma only_a_post_to_the_route_calls_the_model_witness :
  outbound_calls
    (trace (dispatch_request Demo.world Demo.gemini
              (Demo.upload POST "/api/gemini-predict" (Some Demo.jpeg)
                 (Some "food?")))) = 1%nat.
Proof.
  apply (only_a_post_to_the_route_calls_the_model Demo.world Demo.gemini
           (Demo.upload POST "/api/gemini-predict" (Some Demo.jpeg)
              (Some "food?"))).
  repeat split.
Defined.

(** X11: the two routes answer only the methods they list. A request to
    [/api/gemini-predict] with a method other than POST and OPTIONS, and a
    request to [/] with POST, PUT, DELETE or PATCH, is answered 405 and no
    view runs: nothing is logged and the model is not called. *)
Theorem other_methods_are_refused (w : World) (c : Client)
    (request : Request) :
  (path request = "/api/gemini-predict" ->
   method request <> POST -> method request <> OPTIONS ->
   exists r, dispatch_request w c request = ([], inr r)
             /\ status r = 405%Z)
  /\ (path request = "/" ->
      method request = POST \/ method request = PUT
      \/ method request = DELETE \/ method request = PATCH ->
      exists r, dispatch_request w c request = ([], inr r)
                /\ status r = 405%Z).
Proof.
  destruct (dispatch_paths w c request)
    as [[Hp1 [Hp2 ->]] | [[Hp [r [-> Hr]]] | [[Hp [Hm E]] | [Hp [Hm1 [Hm2 ->]]]]]];
    repeat split; intros; try contradiction; try congruence; eauto.
  - exists r. split; [reflexivity|]. now rewrite Hr.
  - destruct Hm; contradiction.
Qed.

Lemma other_methods_are_refused_witness :
  (exists r,
     dispatch_request Demo.world Demo.gemini
       (Demo.upload GET "/api/gemini-predict" (Some Demo.jpeg)
          (Some "food?"))
     = ([], inr r) /\ status r = 405%Z)
  /\ (exists r,
        dispatch_request Demo.world Demo.gemini
          (Demo.upload POST "/" (Some Demo.jpeg) (Some "food?"))
        = ([], inr r) /\ status r = 405%Z).
Proof.
  split.
  - apply (proj1 (other_methods_are_refused Demo.world Demo.gemini
                    (Demo.upload GET "/api/gemini-predict"
                       (Some Demo.jpeg) (Some "food?"))));
      [reflexivity | discriminate | discriminate].
  - apply (proj2 (other_methods_are_refused Demo.world Demo.gemini
                    (Demo.upload POST "/" (Some Demo.jpeg)
                       (Some "food?"))));
      [reflexivity | left; reflexivity].
Defined.

(** ** More on the start of the process *)

(** How the module body ends. *)
Lemma module_body_paths (w : World) (dotenv environ0 : gmap string string) :
  ((load_dotenv dotenv environ0 !! "GEMINI_API_KEY" = None
    \/ load_dotenv dotenv environ0 !! "GEMINI_API_KEY" = Some "")
   /\ module_body w dotenv environ0
      = ([EvGetenv "GEMINI_API_KEY";
          EvLog ERROR
            "GEMINI_API_KEY is not set. Please set the environment variable."],
         inl (RuntimeError "GEMINI_API_KEY is not set")))
  \/ (exists k e,
      load_dotenv dotenv environ0 !! "GEMINI_API_KEY" = Some k /\ k <> ""
      /\ genai_Client w (load_dotenv dotenv environ0) = inl e
      /\ module_body w dotenv environ0 = ([EvGetenv "GEMINI_API_KEY"], inl e))
  \/ (exists k c,
      load_dotenv dotenv environ0 !! "GEMINI_API_KEY" = Some k /\ k <> ""
      /\ genai_Client w (load_dotenv dotenv environ0) = inr c
      /\ module_body w dotenv environ0
         = ([EvGetenv "GEMINI_API_KEY"],
            inr {| API_KEY := k; client := c |})).
Proof.
  unfold module_body, os_getenv.
  cbn [bind ret raise emit lift logger_error app].
  destruct (load_dotenv dotenv environ0 !! "GEMINI_API_KEY") as [[|a k]|];
    [left; auto | | left; auto].
  right.
  destruct (genai_Client w (load_dotenv dotenv environ0)) as [e|c];
    [left; exists (String a k), e | right; exists (String a k), c];
    repeat split; discriminate.
Qed.

(** X12: building the SDK client is part of start-up, outside any [try]:
    when the constructor raises, the process ends with that exception,
    without a log line of its own, and never gets to serve. *)
Theorem client_failure_is_fatal (w : World)
    (dotenv environ0 : gmap string string) (k : string) (e : Exn) :
  load_dotenv dotenv environ0 !! "GEMINI_API_KEY" = Some k ->
  k <> "" ->
  genai_Client w (load_dotenv dotenv environ0) = inl e ->
  main w dotenv environ0 = ([EvGetenv "GEMINI_API_KEY"], inl e).
Proof.
  intros Hk Hne He. unfold main.
  destruct (module_body_paths w dotenv environ0)
    as [[[H | H] _] | [(k' & e' & _ & _ & He' & ->) | (k' & c & _ & _ & Hc & _)]].
  - congruence.
  - rewrite Hk in H. congruence.
  - rewrite He in He'. injection He' as <-. reflexivity.
  - congruence.
Qed.

Lemma client_failure_is_fatal_witness :
  main Offline.world ∅ {[ "GEMINI_API_KEY" := "k-123" ]}
  = ([EvGetenv "GEMINI_API_KEY"],
     inl (OtherException "no API key was provided")).
Proof.
  apply (client_failure_is_fatal Offline.world ∅
           {[ "GEMINI_API_KEY" := "k-123" ]} "k-123");
    [reflexivity | discriminate | reflexivity].
Defined.

(** X13: the script starts serving exactly when start-up succeeds, that is
    when the credential is set and not empty and the SDK client is built;
    the application then holds that credential and that client. It serves
    on host 0.0.0.0, port 5000, and nowhere else. *)
Theorem serves_iff_started (w : World) (dotenv environ0 : gmap string string) :
  (forall app,
     outcome (main w dotenv environ0) = inr app
     <-> load_dotenv dotenv environ0 !! "GEMINI_API_KEY" = Some (API_KEY app)
         /\ API_KEY app <> ""
         /\ genai_Client w (load_dotenv dotenv environ0) = inr (client app))
  /\ (forall host port,
        In (EvServe host port) (trace (main w dotenv environ0))
        <-> (exists app, outcome (main w dotenv environ0) = inr app)
            /\ host = "0.0.0.0" /\ port = 5000%Z).
Proof.
  unfold main.
  destruct (module_body_paths w dotenv environ0)
    as [[H ->] | [(k & e & Hk & Hne & He & ->) | (k & c & Hk & Hne & Hc & ->)]];
    cbn; split.
  - intros app. split; [discriminate|].
    intros (Hk & Hne & _). destruct H as [H | H]; rewrite H in Hk;
      [discriminate | injection Hk as Hk; congruence].
  - intros host port. split.
    + intros [H' | [H' | []]]; discriminate.
    + intros [[app H'] _]. discriminate.
  - intros app. split; [discriminate | intros (_ & _ & Hc); congruence].
  - intros host port. split.
    + intros [H' | []]; discriminate.
    + intros [[app H'] _]. discriminate.
  - intros app. split.
    + intros H. injection H as <-. auto.
    + intros (Hk' & _ & Hc'). destruct app as [k' c']; cbn in *. congruence.
  - intros host port. split.
    + intros [H | [H | [H | []]]]; try discriminate.
      injection H as <- <-. eauto.
    + intros (_ & -> & ->). auto.
Qed.

Lemma serves_iff_started_witness :
  outcome (main Demo.world ∅ {[ "GEMINI_API_KEY" := "k-123" ]})
  = inr {| API_KEY := "k-123"; client := Demo.gemini |}
  /\ In (EvServe "0.0.0.0" 5000)
       (trace (main Demo.world ∅ {[ "GEMINI_API_KEY" := "k-123" ]})).
Proof.
  split.
  - apply (proj1 (serves_iff_started Demo.world ∅
                    {[ "GEMINI_API_KEY" := "k-123" ]})
             {| API_KEY := "k-123"; client := Demo.gemini |}).
    repeat split. discriminate.
  - apply (proj2 (serves_iff_started Demo.world ∅
                    {[ "GEMINI_API_KEY" := "k-123" ]})).
    split; [eexists; reflexivity | split; reflexivity].
Defined.

(** X14: [load_dotenv] does not override. When the process environment
    sets the credential, the application holds that value whatever [.env]
    says; the value of [.env] is used only when the environment does not
    set the variable. *)
Theorem environment_wins_over_dotenv (w : World)
    (dotenv environ0 : gmap string string) (app : App) :
  outcome (module_body w dotenv environ0) = inr app ->
  (forall k, environ0 !! "GEMINI_API_KEY" = Some k -> API_KEY app = k)
  /\ (environ0 !! "GEMINI_API_KEY" = None ->
      dotenv !! "GEMINI_API_KEY" = Some (API_KEY app)).
Proof.
  intros H.
  destruct (module_body_paths w dotenv environ0)
    as [[_ E] | [(k & e & _ & _ & _ & E) | (k & c & Hk & _ & _ & E)]];
    rewrite E in H; cbn in H; try discriminate.
  injection H as <-. cbn. unfold load_dotenv in Hk.
  rewrite lookup_union in Hk. split.
  - intros k' Hk'. rewrite Hk' in Hk.
    destruct (dotenv !! "GEMINI_API_KEY"); cbn in Hk; congruence.
  - intros Hnone. rewrite Hnone in Hk.
    destruct (dotenv !! "GEMINI_API_KEY"); cbn in Hk; congruence.
Qed.

Lemma environment_wins_over_dotenv_witness :
  API_KEY {| API_KEY := "from-env"; client := Demo.gemini |} = "from-env"
  /\ ({[ "GEMINI_API_KEY" := "from-file" ]} : gmap string string)
       !! "GEMINI_API_KEY"
     = Some (API_KEY {| API_KEY := "from-file"; client := Demo.gemini |}).
Proof.
  split.
  - refine (proj1 (environment_wins_over_dotenv Demo.world
                     {[ "GEMINI_API_KEY" := "from-file" ]}
                     {[ "GEMINI_API_KEY" := "from-env" ]}
                     {| API_KEY := "from-env"; client := Demo.gemini |}
                     _) "from-env" _);
      vm_compute; reflexivity.
  - refine (proj2 (environment_wins_over_dotenv Demo.world
                     {[ "GEMINI_API_KEY" := "from-file" ]} ∅
                     {| API_KEY := "from-file"; client := Demo.gemini |}
                     _) _);
      vm_compute; reflexivity.
Defined.
